(** * ngx-tree: the options model ([src/lib/models/tree-options.model.ts])

    A shallow embedding of [TreeOptions], of the built-in [TREE_ACTIONS]
    and of the default action mapping, together with the properties the
    specification states about them.

    Conventions of the embedding.
    - An optional property [p?: T] of a TypeScript interface is a field of
      type [option T]; [None] is JavaScript's [undefined].
    - JavaScript numbers are integers or [NaN]; fractions and infinities
      are outside the model.
    - A JavaScript object used as a dictionary (the [mouse] and [keys]
      tables of an action mapping) is a [gmap]; a property that is absent
      reads as [undefined].
    - [TreeNode] and [TreeModel] are classes of the library that live in
      other files. What this file reads from them and the methods it calls
      on them are collected in the interface [TreeApi]; method calls are
      run in a small state-and-exception monad that also records them. *)

From stdpp Require Import base option strings gmap fin_maps.
From Stdlib Require Import ZArith Lia.

Local Open Scope Z_scope.

(** ** JavaScript values *)

(** [number] *)
Inductive number : Type :=
| Num (z : Z)
| NaN.

(** [any]: primitives and references to objects. *)
Inductive any : Type :=
| undefined
| null
| boolean (b : bool)
| numeric (n : number)
| text (s : string)
| object (ref : positive).

(** Truthiness of a number: [0] and [NaN] are falsy. *)
Definition number_truthy (n : number) : bool :=
  match n with
  | Num z => negb (z =? 0)
  | NaN => false
  end.

(** Truthiness of a string: only the empty string is falsy. *)
Definition string_truthy (s : string) : bool :=
  match s with
  | EmptyString => false
  | String _ _ => true
  end.

(** [ToBoolean] *)
Definition truthy (v : any) : bool :=
  match v with
  | undefined | null => false
  | boolean b => b
  | numeric n => number_truthy n
  | text s => string_truthy s
  | object _ => true
  end.

(** [a + b] on numbers. *)
Definition number_add (a b : number) : number :=
  match a, b with
  | Num x, Num y => Num (x + y)
  | _, _ => NaN
  end.

(** [a === b] on numbers; [NaN] equals nothing. *)
Definition number_strict_eq (a b : number) : bool :=
  match a, b with
  | Num x, Num y => x =? y
  | _, _ => false
  end.

(** [x || d] where [x] is an optional property whose values of type [A]
    have the truthiness [is_truthy]. *)
Definition js_or {A : Type} (is_truthy : A → bool) (x : option A) (d : A) : A :=
  match x with
  | Some a => if is_truthy a then a else d
  | None => d
  end.

(** ** The interface to [TreeNode] and [TreeModel] *)

(** [{ parent, index, dropOnNode }], the target of a move or a drop. *)
Record DropTarget (TreeNode : Type) : Type := {
  parent : TreeNode;
  index : number;
  dropOnNode : bool;
}.
Arguments parent {TreeNode} _.
Arguments index {TreeNode} _.
Arguments dropOnNode {TreeNode} _.

(** The method calls [TREE_ACTIONS] makes on a node or on the tree model. *)
Inductive Call (TreeModel TreeNode : Type) : Type :=
| node_toggleActivated (node : TreeNode) (multi : any)
| node_setActive (node : TreeNode) (value : bool)
| node_focus (node : TreeNode)
| node_toggleExpanded (node : TreeNode)
| node_expand (node : TreeNode)
| node_collapse (node : TreeNode)
| tree_focusDrillDown (tree : TreeModel)
| tree_focusDrillUp (tree : TreeModel)
| tree_focusNextNode (tree : TreeModel)
| tree_focusPreviousNode (tree : TreeModel)
| tree_moveNode (tree : TreeModel) (from : TreeNode) (to : DropTarget TreeNode).
Arguments node_toggleActivated {TreeModel TreeNode} _ _.
Arguments node_setActive {TreeModel TreeNode} _ _.
Arguments node_focus {TreeModel TreeNode} _.
Arguments node_toggleExpanded {TreeModel TreeNode} _.
Arguments node_expand {TreeModel TreeNode} _.
Arguments node_collapse {TreeModel TreeNode} _.
Arguments tree_focusDrillDown {TreeModel TreeNode} _.
Arguments tree_focusDrillUp {TreeModel TreeNode} _.
Arguments tree_focusNextNode {TreeModel TreeNode} _.
Arguments tree_focusPreviousNode {TreeModel TreeNode} _.
Arguments tree_moveNode {TreeModel TreeNode} _ _ _.

(** The result of running JavaScript code: a value, or a thrown
    [TypeError] (reading a property of [null] or [undefined]). *)
Inductive Outcome (A : Type) : Type :=
| Value (a : A)
| TypeError.
Arguments Value {A} _.
Arguments TypeError {A}.

(** What this file needs from the rest of the library. [World] is the
    mutable state reachable from the tree model and its nodes. The three
    readers are the properties the file reads ([node.data.virtual],
    [node.index], [node.hasChildren]); [perform] is the effect of a method
    call on the world together with the value the method returns. *)
Class TreeApi : Type := {
  TreeModel : Type;
  TreeNode : Type;
  World : Type;
  node_data_virtual : World → TreeNode → any;
  node_index : World → TreeNode → number;
  node_hasChildren : World → TreeNode → bool;
  perform : Call TreeModel TreeNode → World → Outcome any * World;
}.

(** [NUMBER_KEYS] of [../constants/keys]: the key codes the default
    mapping mentions. Their values are fixed in that file, not here. *)
Module NUMBER_KEYS.
Class t : Type := {
  RIGHT : Z;
  LEFT : Z;
  DOWN : Z;
  UP : Z;
  SPACE : Z;
  ENTER : Z;
}.
End NUMBER_KEYS.

(** A parameter or a table entry that may hold an object, [null] or
    [undefined]. *)
Inductive Nullable (A : Type) : Type :=
| Undefined
| Null
| Obj (a : A).
Arguments Undefined {A}.
Arguments Null {A}.
Arguments Obj {A} _.

(** The value of a falsy [Nullable], as the left operand of [&&] yields it. *)
Definition falsy_value {A : Type} (x : Nullable A) : any :=
  match x with
  | Undefined => undefined
  | _ => null
  end.

(** ** Running method calls *)

(** The state of a run: the world and the method calls made so far,
    oldest first. *)
Record State `{TreeApi} : Type := {
  world : World;
  calls : list (Call TreeModel TreeNode);
}.

Definition M `{TreeApi} (A : Type) : Type := State → Outcome A * State.

Definition ret `{TreeApi} {A : Type} (a : A) : M A :=
  λ s, (Value a, s).

Definition throw `{TreeApi} {A : Type} : M A :=
  λ s, (TypeError, s).

Definition bind `{TreeApi} {A B : Type} (c : M A) (k : A → M B) : M B :=
  λ s, match c s with
       | (Value a, s') => k a s'
       | (TypeError, s') => (TypeError, s')
       end.

Notation "'let*' x ':=' c 'in' k" := (bind c (λ x, k))
  (at level 10, x name, c at level 100, k at level 200).

(** Read a property of an object of the world. *)
Definition read `{TreeApi} {A : Type} (get : World → A) : M A :=
  λ s, (Value (get (world s)), s).

(** Call a method: the world changes as [perform] says and the call is
    recorded. *)
Definition invoke `{TreeApi} (c : Call TreeModel TreeNode) : M any :=
  λ s, let (r, w) := perform c (world s) in
       (r, {| world := w; calls := calls s ++ [c] |}).

(** [x.member] for a receiver that may be [null] or [undefined]. *)
Definition member `{TreeApi} {A B : Type} (x : Nullable A) (k : A → M B) : M B :=
  match x with
  | Obj a => k a
  | _ => throw
  end.

(** ** [IActionHandler] and [TREE_ACTIONS] *)

(** The fourth argument of [MOVE_NODE]: [{ from, to }]. *)
Record MoveArgs `{TreeApi} : Type := {
  from : TreeNode;
  to : DropTarget TreeNode;
}.

(** [(tree, node, $event, ...rest)]; the only rest argument that is used
    is the fourth one, which [None] leaves out. *)
Definition IActionHandler `{TreeApi} : Type :=
  TreeModel → Nullable TreeNode → any → option MoveArgs → M any.

Module TREE_ACTIONS.

(** [node && node.toggleActivated()] *)
Definition TOGGLE_SELECTED `{TreeApi} : IActionHandler :=
  λ tree node _event _rest,
    match node with
    | Obj n => invoke (node_toggleActivated n undefined)
    | _ => ret (falsy_value node)
    end.

(** [node && node.toggleActivated(true)] *)
Definition TOGGLE_SELECTED_MULTI `{TreeApi} : IActionHandler :=
  λ tree node _event _rest,
    match node with
    | Obj n => invoke (node_toggleActivated n (boolean true))
    | _ => ret (falsy_value node)
    end.

(** [node.setActive(true)] *)
Definition SELECT `{TreeApi} : IActionHandler :=
  λ tree node _event _rest, member node (λ n, invoke (node_setActive n true)).

(** [node.setActive(false)] *)
Definition DESELECT `{TreeApi} : IActionHandler :=
  λ tree node _event _rest, member node (λ n, invoke (node_setActive n false)).

(** [node.focus()] *)
Definition FOCUS `{TreeApi} : IActionHandler :=
  λ tree node _event _rest, member node (λ n, invoke (node_focus n)).

(** [node.hasChildren && node.toggleExpanded()] *)
Definition TOGGLE_EXPANDED `{TreeApi} : IActionHandler :=
  λ tree node _event _rest,
    member node (λ n,
      let* hasChildren := read (λ w, node_hasChildren w n) in
      if hasChildren then invoke (node_toggleExpanded n)
      else ret (boolean false)).

(** [node.expand()] *)
Definition EXPAND `{TreeApi} : IActionHandler :=
  λ tree node _event _rest, member node (λ n, invoke (node_expand n)).

(** [node.collapse()] *)
Definition COLLAPSE `{TreeApi} : IActionHandler :=
  λ tree node _event _rest, member node (λ n, invoke (node_collapse n)).

(** [tree.focusDrillDown()] *)
Definition DRILL_DOWN `{TreeApi} : IActionHandler :=
  λ tree node _event _rest, invoke (tree_focusDrillDown tree).

(** [tree.focusDrillUp()] *)
Definition DRILL_UP `{TreeApi} : IActionHandler :=
  λ tree node _event _rest, invoke (tree_focusDrillUp tree).

(** [tree.focusNextNode()] *)
Definition NEXT_NODE `{TreeApi} : IActionHandler :=
  λ tree node _event _rest, invoke (tree_focusNextNode tree).

(** [tree.focusPreviousNode()] *)
Definition PREVIOUS_NODE `{TreeApi} : IActionHandler :=
  λ tree node _event _rest, invoke (tree_focusPreviousNode tree).

(** [{ tree.moveNode(from, to) }]: destructuring a missing fourth argument
    throws; the block returns nothing. *)
Definition MOVE_NODE `{TreeApi} : IActionHandler :=
  λ tree node _event rest,
    match rest with
    | Some args =>
        let* _ := invoke (tree_moveNode tree (from args) (to args)) in
        ret undefined
    | None => throw
    end.

End TREE_ACTIONS.

(** ** [IActionMapping] *)

(** An entry of a [mouse] or [keys] table: a handler, [null], or
    [undefined] (which is also what an absent entry reads as). *)
Abbreviation Entry := (Nullable IActionHandler).

Record IActionMapping `{TreeApi} : Type := {
  mouse : option (gmap string Entry);
  keys : option (gmap Z Entry);
}.

(** [table[k]] *)
Definition prop `{TreeApi} `{Countable K} (table : gmap K Entry) (k : K) : Entry :=
  default Undefined (table !! k).

(** [mapping.mouse[name]] and [mapping.keys[code]] where the table itself
    may have been left out: an entry of a table that is not there is an
    entry that was not given. *)
Definition entry `{TreeApi} `{Countable K} (table : option (gmap K Entry)) (k : K) : Entry :=
  match table with
  | Some t => prop t k
  | None => Undefined
  end.

(** ** [defaultsDeep] of lodash, on action mappings

    [defaultsDeep(object, ...sources)] assigns, source after source from
    left to right and recursively into nested plain objects, every property
    of the source whose value in [object] is [undefined]; once a property
    is set (to a function or to [null]) later sources do not change it.
    Sources that are [undefined] are skipped. *)

(** One property: the value found in the destination stays unless it is
    [undefined]. A function in the destination is kept as it is when the
    source has a function too. *)
Definition assignDefault `{TreeApi} (objValue srcValue : Entry) : Entry :=
  match objValue with
  | Undefined => srcValue
  | _ => objValue
  end.

(** One table: every key of the source is visited; keys the source does
    not have are left as they are. *)
Definition mergeTable `{TreeApi} `{Countable K}
    (object source : gmap K Entry) : gmap K Entry :=
  union_with (λ objValue srcValue, Some (assignDefault objValue srcValue))
    object source.

(** One property that holds a table: a source table is merged into the
    destination's table, or into a fresh object if there is none yet. *)
Definition mergeTableProp `{TreeApi} `{Countable K}
    (objValue srcValue : option (gmap K Entry)) : option (gmap K Entry) :=
  match srcValue with
  | Some source => Some (mergeTable (default ∅ objValue) source)
  | None => objValue
  end.

Definition baseMerge `{TreeApi} (object source : IActionMapping) : IActionMapping :=
  {| mouse := mergeTableProp (mouse object) (mouse source);
     keys := mergeTableProp (keys object) (keys source) |}.

Definition defaultsDeep `{TreeApi} (object : IActionMapping)
    (sources : list (option IActionMapping)) : IActionMapping :=
  foldl (λ obj source,
           match source with
           | Some src => baseMerge obj src
           | None => obj
           end)
        object sources.

(** [{}] *)
Definition emptyMapping `{TreeApi} : IActionMapping :=
  {| mouse := None; keys := None |}.

(** ** [defaultActionMapping] *)

(** The properties of an object literal are set in the order they are
    written; a computed key that repeats an earlier one overwrites it. *)
Definition defaultActionMapping `{TreeApi} `{NUMBER_KEYS.t} : IActionMapping :=
  {| mouse := Some (
       <["drop" := Obj TREE_ACTIONS.MOVE_NODE]> (
       <["expanderClick" := Obj TREE_ACTIONS.TOGGLE_EXPANDED]> (
       <["contextMenu" := Null]> (
       <["dblClick" := Null]> (
       <["click" := Obj TREE_ACTIONS.TOGGLE_SELECTED]> ∅)))));
     keys := Some (
       <[NUMBER_KEYS.ENTER := Obj TREE_ACTIONS.TOGGLE_SELECTED]> (
       <[NUMBER_KEYS.SPACE := Obj TREE_ACTIONS.TOGGLE_SELECTED]> (
       <[NUMBER_KEYS.UP := Obj TREE_ACTIONS.PREVIOUS_NODE]> (
       <[NUMBER_KEYS.DOWN := Obj TREE_ACTIONS.NEXT_NODE]> (
       <[NUMBER_KEYS.LEFT := Obj TREE_ACTIONS.DRILL_UP]> (
       <[NUMBER_KEYS.RIGHT := Obj TREE_ACTIONS.DRILL_DOWN]> ∅)))))) |}.

(** The mouse gestures of [IActionMapping], in the order of the interface. *)
Definition mouseGestures : list string :=
  ["click"; "dblClick"; "contextMenu"; "expanderClick"; "dragStart"; "drag";
   "dragEnd"; "dragOver"; "dragLeave"; "dragEnter"; "drop"]%string.

(** ** [ITreeOptions] *)

Definition INodeHeightFn `{TreeApi} : Type := World → TreeNode → number.
Definition IAllowDragFn `{TreeApi} : Type := World → TreeNode → bool.
Definition IAllowDropFn `{TreeApi} : Type :=
  World → any → DropTarget TreeNode → any → bool.

(** [T | F], a plain value or a function. *)
Inductive ValueOrFn (T F : Type) : Type :=
| plain (v : T)
| function (f : F).
Arguments plain {T F} _.
Arguments function {T F} _.

(** Truthiness of [T | F]: a function is an object, hence truthy. *)
Definition value_or_fn_truthy {T F : Type} (is_truthy : T → bool)
    (x : ValueOrFn T F) : bool :=
  match x with
  | plain v => is_truthy v
  | function _ => true
  end.

Module ITreeOptions.
Record t `{TreeApi} : Type := {
  childrenField : option string;
  displayField : option string;
  idField : option string;
  isExpandedField : option string;
  isHiddenField : option string;
  actionMapping : option IActionMapping;
  levelPadding : option number;
  useVirtualScroll : option bool;
  nodeHeight : option (ValueOrFn number INodeHeightFn);
  enableDragAndDrop : option bool;
  allowDrag : option (ValueOrFn bool IAllowDragFn);
  allowDrop : option (ValueOrFn bool IAllowDropFn);
  dropSlotHeight : option number;
  getChildren : option (World → TreeNode → any);
  nodeClass : option (World → TreeNode → string);
}.

(** [{}] *)
Definition empty `{TreeApi} : t :=
  {| childrenField := None; displayField := None; idField := None;
     isExpandedField := None; isHiddenField := None; actionMapping := None;
     levelPadding := None; useVirtualScroll := None; nodeHeight := None;
     enableDragAndDrop := None; allowDrag := None; allowDrop := None;
     dropSlotHeight := None; getChildren := None; nodeClass := None |}.
End ITreeOptions.

(** ** [TreeOptions] *)

Module TreeOptions.
Record t `{TreeApi} : Type := {
  options : ITreeOptions.t;
  actionMapping : IActionMapping;
}.

(** [constructor(private options: ITreeOptions = {})] *)
Definition constructor `{TreeApi} `{NUMBER_KEYS.t}
    (options : option ITreeOptions.t) : t :=
  let options := default ITreeOptions.empty options in
  {| options := options;
     actionMapping :=
       defaultsDeep emptyMapping
         [ITreeOptions.actionMapping options; Some defaultActionMapping] |}.

Definition childrenField `{TreeApi} (this : t) : string :=
  js_or string_truthy (ITreeOptions.childrenField (options this)) "children".

Definition displayField `{TreeApi} (this : t) : string :=
  js_or string_truthy (ITreeOptions.displayField (options this)) "name".

Definition idField `{TreeApi} (this : t) : string :=
  js_or string_truthy (ITreeOptions.idField (options this)) "id".

Definition isExpandedField `{TreeApi} (this : t) : string :=
  js_or string_truthy (ITreeOptions.isExpandedField (options this)) "isExpanded".

Definition isHiddenField `{TreeApi} (this : t) : string :=
  js_or string_truthy (ITreeOptions.isHiddenField (options this)) "isHidden".

Definition getChildren `{TreeApi} (this : t) : option (World → TreeNode → any) :=
  ITreeOptions.getChildren (options this).

Definition levelPadding `{TreeApi} (this : t) : number :=
  js_or number_truthy (ITreeOptions.levelPadding (options this)) (Num 0).

Definition useVirtualScroll `{TreeApi} (this : t) : option bool :=
  ITreeOptions.useVirtualScroll (options this).

Definition dropSlotHeight `{TreeApi} (this : t) : number :=
  js_or number_truthy (ITreeOptions.dropSlotHeight (options this)) (Num 2).

Definition enableDragAndDrop `{TreeApi} (this : t) : option bool :=
  ITreeOptions.enableDragAndDrop (options this).

Definition nodeClass `{TreeApi} (this : t) (w : World) (node : TreeNode) : string :=
  match ITreeOptions.nodeClass (options this) with
  | Some nodeClass => nodeClass w node
  | None => EmptyString
  end.

Definition nodeHeight `{TreeApi} (this : t) (w : World) (node : TreeNode) : number :=
  if truthy (node_data_virtual w node) then Num 0
  else
    let nodeHeight :=
      js_or (value_or_fn_truthy number_truthy)
        (ITreeOptions.nodeHeight (options this)) (plain (Num 22)) in
    let nodeHeight :=
      match nodeHeight with
      | function f => f w node
      | plain n => n
      end in
    (* account for drop slots: *)
    number_add nodeHeight
      (if number_strict_eq (node_index w node) (Num 0) then Num 2 else Num 1).

Definition allowDrop `{TreeApi} (this : t) (w : World)
    (element : any) (to : DropTarget TreeNode) (event : any) : bool :=
  match ITreeOptions.allowDrop (options this) with
  | Some (function f) => f w element to event
  | Some (plain b) => b
  | None => true
  end.

Definition allowDrag `{TreeApi} (this : t) (w : World) (node : TreeNode) : option bool :=
  match ITreeOptions.allowDrag (options this) with
  | Some (function f) => Some (f w node)
  | Some (plain b) => Some b
  | None => None
  end.
End TreeOptions.

(** ** A small tree and the usual key codes

    An instance of [TreeApi] with three flags per node and a focused node,
    and the [keyCode] values of the arrow keys, the space bar and the enter
    key; the properties below are instantiated on them. *)

Module Sample.
Record NodeState : Type := {
  virtual : any;
  position : number;
  childCount : nat;
  isExpanded : bool;
  isActive : bool;
}.

Record TreeState : Type := {
  nodes : gmap nat NodeState;
  focused : option nat;
}.

Definition update (n : nat) (f : NodeState → NodeState) (w : TreeState) : TreeState :=
  {| nodes := alter f n (nodes w); focused := focused w |}.

Definition setExpanded (b : bool) (st : NodeState) : NodeState :=
  {| virtual := virtual st; position := position st; childCount := childCount st;
     isExpanded := b; isActive := isActive st |}.

Definition setActive (b : bool) (st : NodeState) : NodeState :=
  {| virtual := virtual st; position := position st; childCount := childCount st;
     isExpanded := isExpanded st; isActive := b |}.

Definition setPosition (i : number) (st : NodeState) : NodeState :=
  {| virtual := virtual st; position := i; childCount := childCount st;
     isExpanded := isExpanded st; isActive := isActive st |}.

Definition setFocus (f : option nat) (w : TreeState) : TreeState :=
  {| nodes := nodes w; focused := f |}.

Definition run (c : Call unit nat) (w : TreeState) : Outcome any * TreeState :=
  match c with
  | node_toggleActivated n _ =>
      (Value undefined, update n (λ st, setActive (negb (isActive st)) st) w)
  | node_setActive n b => (Value undefined, update n (setActive b) w)
  | node_focus n => (Value undefined, setFocus (Some n) w)
  | node_toggleExpanded n =>
      (Value undefined, update n (λ st, setExpanded (negb (isExpanded st)) st) w)
  | node_expand n => (Value undefined, update n (setExpanded true) w)
  | node_collapse n => (Value undefined, update n (setExpanded false) w)
  | tree_focusDrillDown _ | tree_focusNextNode _ =>
      (Value undefined, setFocus (S <$> focused w) w)
  | tree_focusDrillUp _ | tree_focusPreviousNode _ =>
      (Value undefined, setFocus (Nat.pred <$> focused w) w)
  | tree_moveNode _ n target =>
      (Value undefined, update n (setPosition (index target)) w)
  end.

Definition api : TreeApi :=
  {| TreeModel := unit;
     TreeNode := nat;
     World := TreeState;
     node_data_virtual w n := default undefined (virtual <$> nodes w !! n);
     node_index w n := default NaN (position <$> nodes w !! n);
     node_hasChildren w n :=
       default false ((λ st, negb (Nat.eqb (childCount st) 0)) <$> nodes w !! n);
     perform := run |}.

Definition keyCodes : NUMBER_KEYS.t :=
  {| NUMBER_KEYS.RIGHT := 39; NUMBER_KEYS.LEFT := 37; NUMBER_KEYS.DOWN := 40;
     NUMBER_KEYS.UP := 38; NUMBER_KEYS.SPACE := 32; NUMBER_KEYS.ENTER := 13 |}.

Definition leaf (i : Z) : NodeState :=
  {| virtual := undefined; position := Num i; childCount := 0;
     isExpanded := false; isActive := false |}.

Definition spacer (i : Z) : NodeState :=
  {| virtual := boolean true; position := Num i; childCount := 0;
     isExpanded := false; isActive := false |}.

(** Nodes 0 to 3 are leaves at the positions 0 to 3; node 4 is a spacer
    of the virtual scroll. *)
Definition tree : TreeState :=
  {| nodes := <[4%nat := spacer 4]> (<[3%nat := leaf 3]> (<[2%nat := leaf 2]>
                (<[1%nat := leaf 1]> (<[0%nat := leaf 0]> ∅))));
     focused := None |}.

Definition start : @State api := @Build_State api tree [].

(** A user mapping that suppresses the click and the down-arrow defaults,
    gives handlers to the double click and to the key [A], and leaves the
    rest alone. *)
Definition userMapping : @IActionMapping api :=
  @Build_IActionMapping api
    (Some (<["dblClick"%string := Obj (@TREE_ACTIONS.EXPAND api)]>
             (<["click"%string := Null]> ∅)))
    (Some (<[65 := Obj (@TREE_ACTIONS.FOCUS api)]> (<[40 := Null]> ∅))).

Definition userOptions : @ITreeOptions.t api :=
  @ITreeOptions.Build_t api None None None None None (Some userMapping)
    None None None None None None None None None.

(** Options that set [nodeHeight], [allowDrop] and [dropSlotHeight] only. *)
Definition sizing (nodeHeight : option (ValueOrFn number (@INodeHeightFn api)))
    (allowDrop : option (ValueOrFn bool (@IAllowDropFn api)))
    (dropSlotHeight : option number) : @ITreeOptions.t api :=
  @ITreeOptions.Build_t api None None None None None None
    None None nodeHeight None None allowDrop dropSlotHeight None None.

(** Drops are allowed at the first position only. *)
Definition firstOnly : @IAllowDropFn api :=
  λ w element to event, number_strict_eq (index to) (Num 0).
End Sample.

(** What the user gave for an option, if anything: the constructor may get
    no argument, an object without the option, or one with it. *)
Definition given `{TreeApi} {A : Type} (field : ITreeOptions.t → option A)
    (options : option ITreeOptions.t) : option A :=
  options ≫= field.

Definition userActionMapping `{TreeApi} (options : option ITreeOptions.t) :
    option IActionMapping :=
  given ITreeOptions.actionMapping options.

(** Every getter whose result may be [undefined] yields a value. *)
Definition everyFieldDefined `{TreeApi} (this : TreeOptions.t) : Prop :=
  is_Some (TreeOptions.useVirtualScroll this) ∧
  is_Some (TreeOptions.enableDragAndDrop this) ∧
  ∀ w node, is_Some (TreeOptions.allowDrag this w node).

(** The key codes the default mapping has an entry for. *)
Definition defaultKeyCodes `{NUMBER_KEYS.t} : list Z :=
  [NUMBER_KEYS.RIGHT; NUMBER_KEYS.LEFT; NUMBER_KEYS.DOWN; NUMBER_KEYS.UP;
   NUMBER_KEYS.SPACE; NUMBER_KEYS.ENTER].

(** Every gesture of the interface and every default key code has a
    handler or [null]. *)
Definition everySlotFilled `{TreeApi} `{NUMBER_KEYS.t} (m : IActionMapping) : Prop :=
  Forall (λ name, entry (mouse m) name ≠ Undefined) mouseGestures ∧
  Forall (λ code, entry (keys m) code ≠ Undefined) defaultKeyCodes.

(** The mouse gestures the default mapping has an entry for. *)
Definition defaultMouseGestures : list string :=
  ["click"; "dblClick"; "contextMenu"; "expanderClick"; "drop"]%string.

(** The values of [TREE_ACTIONS], in the order of the object literal. *)
Definition builtinActions `{TreeApi} : list IActionHandler :=
  [TREE_ACTIONS.TOGGLE_SELECTED; TREE_ACTIONS.TOGGLE_SELECTED_MULTI;
   TREE_ACTIONS.SELECT; TREE_ACTIONS.DESELECT; TREE_ACTIONS.FOCUS;
   TREE_ACTIONS.TOGGLE_EXPANDED; TREE_ACTIONS.EXPAND; TREE_ACTIONS.COLLAPSE;
   TREE_ACTIONS.DRILL_DOWN; TREE_ACTIONS.DRILL_UP; TREE_ACTIONS.NEXT_NODE;
   TREE_ACTIONS.PREVIOUS_NODE; TREE_ACTIONS.MOVE_NODE].

(** The actions that call a method of the node without testing the node. *)
Definition nodeMethodActions `{TreeApi} : list IActionHandler :=
  [TREE_ACTIONS.SELECT; TREE_ACTIONS.DESELECT; TREE_ACTIONS.FOCUS;
   TREE_ACTIONS.TOGGLE_EXPANDED; TREE_ACTIONS.EXPAND; TREE_ACTIONS.COLLAPSE].

(** The five field-name getters of an options object, in the order of the
    class. *)
Definition fieldNames `{TreeApi} (this : TreeOptions.t) : list string :=
  [TreeOptions.childrenField this; TreeOptions.displayField this;
   TreeOptions.idField this; TreeOptions.isExpandedField this;
   TreeOptions.isHiddenField this].

(** ** More options over the small tree *)

Module Fixture.
(** Options that set two field names, the two numbers, [nodeHeight] and
    [allowDrag]. *)
Definition custom (childrenField displayField : option string)
    (levelPadding dropSlotHeight : option number)
    (nodeHeight : option (ValueOrFn number (@INodeHeightFn Sample.api)))
    (allowDrag : option (ValueOrFn bool (@IAllowDragFn Sample.api))) :
    @ITreeOptions.t Sample.api :=
  @ITreeOptions.Build_t Sample.api childrenField displayField None None None None
    levelPadding None nodeHeight None allowDrag None dropSlotHeight None None.

(** Options that set the action mapping only. *)
Definition mapped (mapping : @IActionMapping Sample.api) : @ITreeOptions.t Sample.api :=
  @ITreeOptions.Build_t Sample.api None None None None None (Some mapping)
    None None None None None None None None None.

(** A row is ten units high per position: the first row has no height of
    its own. *)
Definition rowHeight : @INodeHeightFn Sample.api :=
  λ w node,
    match node_index w node with
    | Num i => Num (10 * i)
    | NaN => NaN
    end.

(** Only nodes at odd positions may be dragged. *)
Definition oddOnly : @IAllowDragFn Sample.api :=
  λ w node,
    match node_index w node with
    | Num i => Z.odd i
    | NaN => false
    end.

(** Node 0 gets two children; the other nodes stay leaves. *)
Definition family : Sample.TreeState :=
  {| Sample.nodes :=
       alter (λ st, {| Sample.virtual := Sample.virtual st;
                       Sample.position := Sample.position st;
                       Sample.childCount := 2;
                       Sample.isExpanded := Sample.isExpanded st;
                       Sample.isActive := Sample.isActive st |})
         0%nat (Sample.nodes Sample.tree);
     Sample.focused := None |}.

Definition familyStart : @State Sample.api := @Build_State Sample.api family [].

(** Move node 3 to the front of node 0. *)
Definition toFront : @MoveArgs Sample.api :=
  @Build_MoveArgs Sample.api 3%nat
    {| parent := 0%nat; index := Num 0; dropOnNode := false |}.
End Fixture.

(** * Properties *)

(** ** The merge of action mappings *)

Section merge.
Context `{TreeApi} `{Countable K}.

Lemma prop_empty (k : K) : prop (∅ : gmap K Entry) k = Undefined.
Proof. unfold prop. by rewrite lookup_empty. Qed.

Lemma prop_insert (table : gmap K Entry) (i k : K) (e : Entry) :
  prop (<[i := e]> table) k = if decide (i = k) then e else prop table k.
Proof. unfold prop. rewrite lookup_insert. by case_decide. Qed.

Lemma assignDefault_Undefined_r (e : Entry) : assignDefault e Undefined = e.
Proof. by destruct e. Qed.

Lemma prop_mergeTable (object source : gmap K Entry) (k : K) :
  prop (mergeTable object source) k = assignDefault (prop object k) (prop source k).
Proof.
  unfold prop, mergeTable. rewrite lookup_union_with.
  destruct (object !! k) as [a|], (source !! k) as [b|]; simpl; try done.
  by destruct a.
Qed.

Lemma entry_mergeTableProp (objValue srcValue : option (gmap K Entry)) (k : K) :
  entry (mergeTableProp objValue srcValue) k
  = assignDefault (entry objValue k) (entry srcValue k).
Proof.
  destruct srcValue as [source|]; simpl.
  - rewrite prop_mergeTable. destruct objValue; simpl; [done|].
    by rewrite prop_empty.
  - by rewrite assignDefault_Undefined_r.
Qed.

Lemma mergeTable_empty_l (source : gmap K Entry) : mergeTable ∅ source = source.
Proof.
  apply map_eq. intros k. unfold mergeTable. rewrite lookup_union_with.
  rewrite lookup_empty. by destruct (source !! k).
Qed.
End merge.

Section resolved.
Context `{TreeApi} `{NUMBER_KEYS.t}.

(** The destination after the first source, the user's mapping. *)
Lemma defaultsDeep_unfold (options : option ITreeOptions.t) :
  TreeOptions.actionMapping (TreeOptions.constructor options)
  = baseMerge
      (match userActionMapping options with
       | Some user => baseMerge emptyMapping user
       | None => emptyMapping
       end)
      defaultActionMapping.
Proof. by destruct options as [o|]. Qed.

Lemma resolved_mouse_entry (options : option ITreeOptions.t) (name : string) :
  entry (mouse (TreeOptions.actionMapping (TreeOptions.constructor options))) name
  = assignDefault (entry (userActionMapping options ≫= mouse) name)
      (entry (mouse defaultActionMapping) name).
Proof.
  rewrite defaultsDeep_unfold. cbn [baseMerge mouse].
  rewrite entry_mergeTableProp. f_equal.
  destruct (userActionMapping options) as [user|]; [|done].
  cbn [baseMerge mouse emptyMapping mbind option_bind].
  by rewrite entry_mergeTableProp.
Qed.

Lemma resolved_keys_entry (options : option ITreeOptions.t) (code : Z) :
  entry (keys (TreeOptions.actionMapping (TreeOptions.constructor options))) code
  = assignDefault (entry (userActionMapping options ≫= keys) code)
      (entry (keys defaultActionMapping) code).
Proof.
  rewrite defaultsDeep_unfold. cbn [baseMerge keys].
  rewrite entry_mergeTableProp. f_equal.
  destruct (userActionMapping options) as [user|]; [|done].
  cbn [baseMerge keys emptyMapping mbind option_bind].
  by rewrite entry_mergeTableProp.
Qed.

(** Without a user mapping the result is a copy of the default one. *)
Lemma resolved_default (options : option ITreeOptions.t) :
  userActionMapping options = None →
  TreeOptions.actionMapping (TreeOptions.constructor options) = defaultActionMapping.
Proof.
  intros Hnone. rewrite defaultsDeep_unfold, Hnone.
  unfold baseMerge, defaultActionMapping; simpl.
  by rewrite !mergeTable_empty_l.
Qed.
End resolved.

(** ** The resolved action mapping *)

(** C3. For every user-supplied action mapping and every entry of the
    mouse table and of the key table: a handler or a [null] given by the
    user is the resolved entry, and an entry the user left out resolves to
    the entry of the default mapping. *)
Theorem action_mapping_merge `{TreeApi} `{NUMBER_KEYS.t}
    (options : option ITreeOptions.t) :
  let user := userActionMapping options in
  let resolved := TreeOptions.actionMapping (TreeOptions.constructor options) in
  (∀ name : string,
     (∀ h, entry (user ≫= mouse) name = Obj h →
           entry (mouse resolved) name = Obj h) ∧
     (entry (user ≫= mouse) name = Null → entry (mouse resolved) name = Null) ∧
     (entry (user ≫= mouse) name = Undefined →
      entry (mouse resolved) name = entry (mouse defaultActionMapping) name)) ∧
  (∀ code : Z,
     (∀ h, entry (user ≫= keys) code = Obj h →
           entry (keys resolved) code = Obj h) ∧
     (entry (user ≫= keys) code = Null → entry (keys resolved) code = Null) ∧
     (entry (user ≫= keys) code = Undefined →
      entry (keys resolved) code = entry (keys defaultActionMapping) code)).
Proof.
  intros user resolved. split.
  - intros name. subst resolved. rewrite resolved_mouse_entry. fold user.
    split_and!; [intros h Hu|intros Hu|intros Hu]; by rewrite Hu.
  - intros code. subst resolved. rewrite resolved_keys_entry. fold user.
    split_and!; [intros h Hu|intros Hu|intros Hu]; by rewrite Hu.
Qed.

Lemma action_mapping_merge_witness :
  let resolved :=
    TreeOptions.actionMapping
      (@TreeOptions.constructor Sample.api Sample.keyCodes (Some Sample.userOptions)) in
  entry (mouse resolved) "dblClick"%string = Obj TREE_ACTIONS.EXPAND ∧
  entry (mouse resolved) "click"%string = Null ∧
  entry (mouse resolved) "drop"%string = Obj TREE_ACTIONS.MOVE_NODE ∧
  entry (keys resolved) 65 = Obj TREE_ACTIONS.FOCUS ∧
  entry (keys resolved) 40 = Null ∧
  entry (keys resolved) 38 = Obj TREE_ACTIONS.PREVIOUS_NODE.
Proof.
  intros resolved.
  destruct (@action_mapping_merge Sample.api Sample.keyCodes (Some Sample.userOptions))
    as [Hmouse Hkeys].
  split_and!.
  - apply (Hmouse "dblClick"%string). reflexivity.
  - apply (Hmouse "click"%string). reflexivity.
  - etransitivity; [apply (Hmouse "drop"%string)|]; reflexivity.
  - apply (Hkeys 65). reflexivity.
  - apply (Hkeys 40). reflexivity.
  - etransitivity; [apply (Hkeys 38)|]; reflexivity.
Defined.

(** ** The default action mapping *)

Section default_mapping.
Context `{TreeApi} `{NUMBER_KEYS.t}.

(** Every key code of the default mapping has a handler, whatever codes
    coincide. *)
Lemma default_keys_filled :
  Forall (λ code, ∃ h, entry (keys defaultActionMapping) code = Obj h)
    defaultKeyCodes.
Proof.
  unfold defaultKeyCodes, defaultActionMapping, entry; cbn [keys].
  repeat apply Forall_cons_2; [..|apply Forall_nil_2];
    rewrite !prop_insert; repeat case_decide; solve [eauto | congruence].
Qed.

Lemma default_key_DOWN :
  NUMBER_KEYS.DOWN ≠ NUMBER_KEYS.UP →
  NUMBER_KEYS.DOWN ≠ NUMBER_KEYS.SPACE →
  NUMBER_KEYS.DOWN ≠ NUMBER_KEYS.ENTER →
  entry (keys defaultActionMapping) NUMBER_KEYS.DOWN = Obj TREE_ACTIONS.NEXT_NODE.
Proof.
  intros Hup Hspace Henter.
  unfold defaultActionMapping, entry; cbn [keys].
  rewrite !prop_insert. by repeat case_decide.
Qed.
End default_mapping.

(** C4, as the code has it. Without a user mapping the mouse slots
    [click], [dblClick], [contextMenu], [expanderClick] and [drop] and every
    key code of the default mapping hold a handler or [null]; the slots of
    the six drag gestures are [undefined]. *)
Theorem default_slots `{TreeApi} `{NUMBER_KEYS.t} (options : option ITreeOptions.t) :
  userActionMapping options = None →
  let resolved := TreeOptions.actionMapping (TreeOptions.constructor options) in
  Forall (λ name, entry (mouse resolved) name ≠ Undefined)
    ["click"; "dblClick"; "contextMenu"; "expanderClick"; "drop"]%string ∧
  Forall (λ name, entry (mouse resolved) name = Undefined)
    ["dragStart"; "drag"; "dragEnd"; "dragOver"; "dragLeave"; "dragEnter"]%string ∧
  Forall (λ code, entry (keys resolved) code ≠ Undefined) defaultKeyCodes.
Proof.
  intros Hnone resolved. subst resolved. rewrite (resolved_default _ Hnone).
  split_and!.
  - repeat apply Forall_cons_2; [..|apply Forall_nil_2]; by vm_compute.
  - repeat apply Forall_cons_2; [..|apply Forall_nil_2]; by vm_compute.
  - eapply Forall_impl; [apply default_keys_filled|].
    intros code [h Hh]. by rewrite Hh.
Qed.

Lemma default_slots_witness :
  let resolved :=
    TreeOptions.actionMapping (@TreeOptions.constructor Sample.api Sample.keyCodes None) in
  Forall (λ name, entry (mouse resolved) name ≠ Undefined)
    ["click"; "dblClick"; "contextMenu"; "expanderClick"; "drop"]%string ∧
  Forall (λ name, entry (mouse resolved) name = Undefined)
    ["dragStart"; "drag"; "dragEnd"; "dragOver"; "dragLeave"; "dragEnter"]%string ∧
  Forall (λ code, entry (keys resolved) code ≠ Undefined) [39; 37; 40; 38; 32; 13].
Proof.
  apply (@default_slots Sample.api Sample.keyCodes None). reflexivity.
Defined.

(** C4, as the specification states it, fails: after resolution without a
    user mapping the slot of [dragStart] is [undefined]. *)
Lemma default_slots_not_all_filled :
  ¬ @everySlotFilled Sample.api Sample.keyCodes
      (TreeOptions.actionMapping (@TreeOptions.constructor Sample.api Sample.keyCodes None)).
Proof.
  intros [Hmouse _].
  apply Forall_forall with (x := "dragStart"%string) in Hmouse.
  - by apply Hmouse.
  - unfold mouseGestures. set_solver.
Qed.

(** C6. Without user overrides the [click] entry is [TOGGLE_SELECTED],
    which calls [toggleActivated] on the node with no argument, and the
    entry of the [DOWN] key code is [NEXT_NODE], which calls
    [focusNextNode] on the tree. The key codes are those of
    [NUMBER_KEYS], where [DOWN] differs from the codes written after it. *)
Theorem default_click_and_down `{TreeApi} `{NUMBER_KEYS.t}
    (options : option ITreeOptions.t) :
  userActionMapping options = None →
  NUMBER_KEYS.DOWN ≠ NUMBER_KEYS.UP →
  NUMBER_KEYS.DOWN ≠ NUMBER_KEYS.SPACE →
  NUMBER_KEYS.DOWN ≠ NUMBER_KEYS.ENTER →
  let resolved := TreeOptions.actionMapping (TreeOptions.constructor options) in
  entry (mouse resolved) "click" = Obj TREE_ACTIONS.TOGGLE_SELECTED ∧
  (∀ tree node event rest s,
     TREE_ACTIONS.TOGGLE_SELECTED tree (Obj node) event rest s
     = invoke (node_toggleActivated node undefined) s) ∧
  entry (keys resolved) NUMBER_KEYS.DOWN = Obj TREE_ACTIONS.NEXT_NODE ∧
  (∀ tree node event rest s,
     TREE_ACTIONS.NEXT_NODE tree node event rest s
     = invoke (tree_focusNextNode tree) s).
Proof.
  intros Hnone Hup Hspace Henter resolved. subst resolved.
  rewrite (resolved_default _ Hnone). split_and!.
  - by vm_compute.
  - done.
  - by apply default_key_DOWN.
  - done.
Qed.

Lemma default_click_and_down_witness :
  let resolved :=
    TreeOptions.actionMapping (@TreeOptions.constructor Sample.api Sample.keyCodes None) in
  entry (mouse resolved) "click"%string = Obj TREE_ACTIONS.TOGGLE_SELECTED ∧
  @TREE_ACTIONS.TOGGLE_SELECTED Sample.api tt (Obj 1%nat) undefined None Sample.start
  = @invoke Sample.api (node_toggleActivated 1%nat undefined) Sample.start ∧
  entry (keys resolved) 40 = Obj TREE_ACTIONS.NEXT_NODE ∧
  @TREE_ACTIONS.NEXT_NODE Sample.api tt (Obj 1%nat) undefined None Sample.start
  = @invoke Sample.api (tree_focusNextNode tt) Sample.start.
Proof.
  destruct (@default_click_and_down Sample.api Sample.keyCodes None)
    as (Hclick & Htoggle & Hdown & Hnext); [reflexivity | simpl; lia ..|].
  split_and!; [exact Hclick | apply Htoggle | exact Hdown | apply Hnext].
Defined.

(** ** The built-in actions *)

(** C7. On a node without children [TOGGLE_EXPANDED] does nothing: it
    returns [false], makes no method call, [toggleExpanded] in particular,
    and leaves the world as it was. *)
Theorem toggle_expanded_without_children `{TreeApi}
    (tree : TreeModel) (node : TreeNode) (event : any) (rest : option MoveArgs)
    (s : State) :
  node_hasChildren (world s) node = false →
  TREE_ACTIONS.TOGGLE_EXPANDED tree (Obj node) event rest s = (Value (boolean false), s) ∧
  calls (TREE_ACTIONS.TOGGLE_EXPANDED tree (Obj node) event rest s).2 = calls s ∧
  world (TREE_ACTIONS.TOGGLE_EXPANDED tree (Obj node) event rest s).2 = world s.
Proof.
  intros Hleaf.
  assert (TREE_ACTIONS.TOGGLE_EXPANDED tree (Obj node) event rest s
          = (Value (boolean false), s)) as Hrun.
  { unfold TREE_ACTIONS.TOGGLE_EXPANDED, member, bind, read, ret.
    by rewrite Hleaf. }
  by rewrite Hrun.
Qed.

Lemma toggle_expanded_without_children_witness :
  @TREE_ACTIONS.TOGGLE_EXPANDED Sample.api tt (Obj 2%nat) undefined None Sample.start
  = (Value (boolean false), Sample.start) ∧
  calls (@TREE_ACTIONS.TOGGLE_EXPANDED Sample.api tt (Obj 2%nat) undefined None
           Sample.start).2 = [] ∧
  world (@TREE_ACTIONS.TOGGLE_EXPANDED Sample.api tt (Obj 2%nat) undefined None
           Sample.start).2 = Sample.tree.
Proof.
  apply (@toggle_expanded_without_children Sample.api tt 2%nat undefined None Sample.start).
  reflexivity.
Defined.

(** ** The getters of [TreeOptions] *)

Section getters.
Context `{TreeApi} `{NUMBER_KEYS.t}.

(** The constructor keeps the user's object, or [{}] when it got none. *)
Lemma constructor_options (options : option ITreeOptions.t) :
  TreeOptions.options (TreeOptions.constructor options)
  = default ITreeOptions.empty options.
Proof. done. Qed.

Lemma js_or_unset {A : Type} (is_truthy : A → bool) (d : A) :
  js_or is_truthy None d = d.
Proof. done. Qed.

Lemma js_or_falsy {A : Type} (is_truthy : A → bool) (a d : A) :
  is_truthy a = false → js_or is_truthy (Some a) d = d.
Proof. intros Hfalsy. unfold js_or. by rewrite Hfalsy. Qed.

Lemma js_or_truthy {A : Type} (is_truthy : A → bool) (a d : A) :
  is_truthy a = true → js_or is_truthy (Some a) d = a.
Proof. intros Htruthy. unfold js_or. by rewrite Htruthy. Qed.

(** A string option falls back to its literal. *)
Lemma string_getter_unset (field : ITreeOptions.t → option string) (literal : string)
    (options : option ITreeOptions.t) :
  field ITreeOptions.empty = None →
  given field options = None →
  js_or string_truthy (field (default ITreeOptions.empty options)) literal = literal.
Proof. intros Hempty Hunset. destruct options as [o|]; simpl in *; by rewrite ?Hunset, ?Hempty. Qed.

(** A number option falls back to its default when unset or falsy. *)
Lemma number_getter_default (field : ITreeOptions.t → option number) (d : number)
    (options : option ITreeOptions.t) :
  field ITreeOptions.empty = None →
  (given field options = None ∨
   ∃ n, given field options = Some n ∧ number_truthy n = false) →
  js_or number_truthy (field (default ITreeOptions.empty options)) d = d.
Proof.
  intros Hempty [Hunset|(n & Hgiven & Hfalsy)];
    destruct options as [o|]; simpl in *; rewrite ?Hunset, ?Hgiven, ?Hempty;
    try done; by apply js_or_falsy.
Qed.

Lemma nodeHeight_virtual (options : option ITreeOptions.t) (w : World) (node : TreeNode) :
  truthy (node_data_virtual w node) = true →
  TreeOptions.nodeHeight (TreeOptions.constructor options) w node = Num 0.
Proof. intros Hvirtual. unfold TreeOptions.nodeHeight. by rewrite Hvirtual. Qed.

(** The height of a node that is no spacer, for a constant base height. *)
Lemma nodeHeight_constant (options : option ITreeOptions.t) (base : number)
    (w : World) (node : TreeNode) :
  truthy (node_data_virtual w node) = false →
  js_or (value_or_fn_truthy number_truthy)
    (ITreeOptions.nodeHeight (default ITreeOptions.empty options)) (plain (Num 22))
  = plain base →
  TreeOptions.nodeHeight (TreeOptions.constructor options) w node
  = number_add base
      (if number_strict_eq (node_index w node) (Num 0) then Num 2 else Num 1).
Proof.
  intros Hvirtual Hbase. unfold TreeOptions.nodeHeight.
  rewrite Hvirtual, constructor_options. by rewrite Hbase.
Qed.

Lemma nodeHeight_option (options : option ITreeOptions.t) :
  ITreeOptions.nodeHeight (default ITreeOptions.empty options)
  = given ITreeOptions.nodeHeight options.
Proof. by destruct options. Qed.

Lemma allowDrop_option (options : option ITreeOptions.t) :
  ITreeOptions.allowDrop (default ITreeOptions.empty options)
  = given ITreeOptions.allowDrop options.
Proof. by destruct options. Qed.

Lemma number_strict_eq_true (a b : number) :
  number_strict_eq a b = true ↔ ∃ z, a = Num z ∧ b = Num z.
Proof.
  destruct a as [x|], b as [y|]; simpl; split; try done.
  - intros Heq%Z.eqb_eq. subst. eauto.
  - intros (z & [= ->] & [= ->]). apply Z.eqb_refl.
  - by intros (z & _ & ?).
  - by intros (z & ? & _).
  - by intros (z & ? & _).
Qed.

Lemma index_not_first (n : number) :
  n ≠ Num 0 → number_strict_eq n (Num 0) = false.
Proof.
  intros Hne. destruct (number_strict_eq n (Num 0)) eqn:Heq; [|done].
  apply number_strict_eq_true in Heq as (z & -> & [= <-]). done.
Qed.
End getters.

(** C2. With the constant node height 20 a node that is no virtual
    spacer is 22 high at index 0 and 21 high at index 3; a virtual spacer
    is 0 high whatever its index and whatever the options. *)
Theorem nodeHeight_constant_20 `{TreeApi} `{NUMBER_KEYS.t}
    (options : option ITreeOptions.t) (w : World) (node : TreeNode) :
  let this := TreeOptions.constructor options in
  (given ITreeOptions.nodeHeight options = Some (plain (Num 20)) →
   truthy (node_data_virtual w node) = false →
   (node_index w node = Num 0 → TreeOptions.nodeHeight this w node = Num 22) ∧
   (node_index w node = Num 3 → TreeOptions.nodeHeight this w node = Num 21)) ∧
  (truthy (node_data_virtual w node) = true →
   TreeOptions.nodeHeight this w node = Num 0).
Proof.
  intros this. split.
  - intros Hgiven Hvirtual. subst this.
    rewrite (nodeHeight_constant options (Num 20)); [|done|].
    + split; by intros ->.
    + by rewrite nodeHeight_option, Hgiven.
  - apply nodeHeight_virtual.
Qed.

Lemma nodeHeight_constant_20_witness :
  let this := @TreeOptions.constructor Sample.api Sample.keyCodes
                (Some (Sample.sizing (Some (plain (Num 20))) None None)) in
  TreeOptions.nodeHeight this Sample.tree 0%nat = Num 22 ∧
  TreeOptions.nodeHeight this Sample.tree 3%nat = Num 21 ∧
  TreeOptions.nodeHeight this Sample.tree 4%nat = Num 0.
Proof.
  intros this. split_and!.
  - apply (@nodeHeight_constant_20 Sample.api Sample.keyCodes _ Sample.tree 0%nat);
      reflexivity.
  - apply (@nodeHeight_constant_20 Sample.api Sample.keyCodes _ Sample.tree 3%nat);
      reflexivity.
  - apply (@nodeHeight_constant_20 Sample.api Sample.keyCodes _ Sample.tree 4%nat);
      reflexivity.
Defined.

(** C10. Without a [nodeHeight] option the base height is 22: a node that
    is no virtual spacer is 24 high at index 0 and 23 high at every other
    index. *)
Theorem nodeHeight_unset `{TreeApi} `{NUMBER_KEYS.t}
    (options : option ITreeOptions.t) (w : World) (node : TreeNode) :
  given ITreeOptions.nodeHeight options = None →
  truthy (node_data_virtual w node) = false →
  let this := TreeOptions.constructor options in
  (node_index w node = Num 0 → TreeOptions.nodeHeight this w node = Num 24) ∧
  (node_index w node ≠ Num 0 → TreeOptions.nodeHeight this w node = Num 23).
Proof.
  intros Hunset Hvirtual this. subst this.
  rewrite (nodeHeight_constant options (Num 22)); [|done|].
  - split; [by intros ->|]. intros Hne. by rewrite index_not_first.
  - by rewrite nodeHeight_option, Hunset.
Qed.

Lemma nodeHeight_unset_witness :
  let this := @TreeOptions.constructor Sample.api Sample.keyCodes None in
  TreeOptions.nodeHeight this Sample.tree 0%nat = Num 24 ∧
  TreeOptions.nodeHeight this Sample.tree 2%nat = Num 23.
Proof.
  intros this. split.
  - apply (@nodeHeight_unset Sample.api Sample.keyCodes None Sample.tree 0%nat);
      reflexivity.
  - apply (@nodeHeight_unset Sample.api Sample.keyCodes None Sample.tree 2%nat);
      [reflexivity | reflexivity | discriminate].
Defined.

Section defaults.
Context `{TreeApi} `{NUMBER_KEYS.t}.
Variable options : option ITreeOptions.t.
#[local] Abbreviation this := (TreeOptions.constructor options).

Lemma childrenField_unset :
  given ITreeOptions.childrenField options = None →
  TreeOptions.childrenField this = "children".
Proof. by apply (string_getter_unset ITreeOptions.childrenField). Qed.

Lemma displayField_unset :
  given ITreeOptions.displayField options = None →
  TreeOptions.displayField this = "name".
Proof. by apply (string_getter_unset ITreeOptions.displayField). Qed.

Lemma idField_unset :
  given ITreeOptions.idField options = None →
  TreeOptions.idField this = "id".
Proof. by apply (string_getter_unset ITreeOptions.idField). Qed.

Lemma isExpandedField_unset :
  given ITreeOptions.isExpandedField options = None →
  TreeOptions.isExpandedField this = "isExpanded".
Proof. by apply (string_getter_unset ITreeOptions.isExpandedField). Qed.

Lemma isHiddenField_unset :
  given ITreeOptions.isHiddenField options = None →
  TreeOptions.isHiddenField this = "isHidden".
Proof. by apply (string_getter_unset ITreeOptions.isHiddenField). Qed.

Lemma levelPadding_unset :
  given ITreeOptions.levelPadding options = None →
  TreeOptions.levelPadding this = Num 0.
Proof. intros. apply (number_getter_default ITreeOptions.levelPadding); auto. Qed.

Lemma dropSlotHeight_default :
  (given ITreeOptions.dropSlotHeight options = None ∨
   ∃ n, given ITreeOptions.dropSlotHeight options = Some n ∧ number_truthy n = false) →
  TreeOptions.dropSlotHeight this = Num 2.
Proof. by apply (number_getter_default ITreeOptions.dropSlotHeight). Qed.

Lemma nodeClass_unset (w : World) (node : TreeNode) :
  given ITreeOptions.nodeClass options = None →
  TreeOptions.nodeClass this w node = EmptyString.
Proof.
  intros Hunset. unfold TreeOptions.nodeClass.
  destruct options as [o|]; simpl in *; by rewrite ?Hunset.
Qed.

Lemma allowDrop_given (w : World) (element : any) (to : DropTarget TreeNode)
    (event : any) :
  TreeOptions.allowDrop this w element to event
  = match given ITreeOptions.allowDrop options with
    | Some (function f) => f w element to event
    | Some (plain b) => b
    | None => true
    end.
Proof.
  unfold TreeOptions.allowDrop.
  by rewrite constructor_options, allowDrop_option.
Qed.

(** Four getters hand out what the user gave, [undefined] included. *)
Lemma enableDragAndDrop_given :
  TreeOptions.enableDragAndDrop this = given ITreeOptions.enableDragAndDrop options.
Proof. by destruct options. Qed.

Lemma getChildren_given :
  TreeOptions.getChildren this = given ITreeOptions.getChildren options.
Proof. by destruct options. Qed.

Lemma useVirtualScroll_given :
  TreeOptions.useVirtualScroll this = given ITreeOptions.useVirtualScroll options.
Proof. by destruct options. Qed.

Lemma allowDrag_unset (w : World) (node : TreeNode) :
  given ITreeOptions.allowDrag options = None →
  TreeOptions.allowDrag this w node = None.
Proof.
  intros Hunset. unfold TreeOptions.allowDrag.
  destruct options as [o|]; simpl in *; by rewrite ?Hunset.
Qed.
End defaults.

(** C5. When the option is unset the field-name getters return
    ["children"], ["name"], ["id"], ["isExpanded"] and ["isHidden"], and
    [levelPadding] and [dropSlotHeight] return 0 and 2. *)
Theorem getters_unset `{TreeApi} `{NUMBER_KEYS.t} (options : option ITreeOptions.t) :
  let this := TreeOptions.constructor options in
  (given ITreeOptions.childrenField options = None →
   TreeOptions.childrenField this = "children") ∧
  (given ITreeOptions.displayField options = None →
   TreeOptions.displayField this = "name") ∧
  (given ITreeOptions.idField options = None →
   TreeOptions.idField this = "id") ∧
  (given ITreeOptions.isExpandedField options = None →
   TreeOptions.isExpandedField this = "isExpanded") ∧
  (given ITreeOptions.isHiddenField options = None →
   TreeOptions.isHiddenField this = "isHidden") ∧
  (given ITreeOptions.levelPadding options = None →
   TreeOptions.levelPadding this = Num 0) ∧
  (given ITreeOptions.dropSlotHeight options = None →
   TreeOptions.dropSlotHeight this = Num 2).
Proof.
  intros this. subst this. split_and!.
  - apply childrenField_unset.
  - apply displayField_unset.
  - apply idField_unset.
  - apply isExpandedField_unset.
  - apply isHiddenField_unset.
  - apply levelPadding_unset.
  - intros Hunset. apply dropSlotHeight_default. by left.
Qed.

Lemma getters_unset_witness :
  let this := @TreeOptions.constructor Sample.api Sample.keyCodes
                (Some ITreeOptions.empty) in
  TreeOptions.childrenField this = "children"%string ∧
  TreeOptions.displayField this = "name"%string ∧
  TreeOptions.idField this = "id"%string ∧
  TreeOptions.isExpandedField this = "isExpanded"%string ∧
  TreeOptions.isHiddenField this = "isHidden"%string ∧
  TreeOptions.levelPadding this = Num 0 ∧
  TreeOptions.dropSlotHeight this = Num 2.
Proof.
  intros this.
  destruct (@getters_unset Sample.api Sample.keyCodes (Some ITreeOptions.empty))
    as (Hc & Hd & Hi & He & Hh & Hl & Hs).
  split_and!;
    [apply Hc | apply Hd | apply Hi | apply He | apply Hh | apply Hl | apply Hs];
    reflexivity.
Defined.

(** C8. [allowDrop] returns [true] when the option is unset, the boolean
    itself when the option is a boolean, and the result of the function,
    applied to the same three arguments, when the option is a function. *)
Theorem allowDrop_cases `{TreeApi} `{NUMBER_KEYS.t} (options : option ITreeOptions.t)
    (w : World) (element : any) (to : DropTarget TreeNode) (event : any) :
  let this := TreeOptions.constructor options in
  (given ITreeOptions.allowDrop options = None →
   TreeOptions.allowDrop this w element to event = true) ∧
  (∀ b : bool, given ITreeOptions.allowDrop options = Some (plain b) →
   TreeOptions.allowDrop this w element to event = b) ∧
  (∀ f : IAllowDropFn, given ITreeOptions.allowDrop options = Some (function f) →
   TreeOptions.allowDrop this w element to event = f w element to event).
Proof.
  intros this. subst this. rewrite allowDrop_given.
  split_and!; [intros Hg|intros b Hg|intros f Hg]; by rewrite Hg.
Qed.

Lemma allowDrop_cases_witness :
  let target (i : Z) : DropTarget (@TreeNode Sample.api) :=
    {| parent := 1%nat; index := Num i; dropOnNode := false |} in
  let allowDrop options :=
    TreeOptions.allowDrop
      (@TreeOptions.constructor Sample.api Sample.keyCodes (Some options))
      Sample.tree undefined (target 2) undefined in
  allowDrop (Sample.sizing None None None) = true ∧
  allowDrop (Sample.sizing None (Some (plain false)) None) = false ∧
  allowDrop (Sample.sizing None (Some (function Sample.firstOnly)) None)
  = Sample.firstOnly Sample.tree undefined (target 2) undefined.
Proof.
  intros target allowDrop. subst allowDrop.
  pose proof (λ options, @allowDrop_cases Sample.api Sample.keyCodes (Some options)
                Sample.tree undefined (target 2) undefined) as Hcases.
  split_and!.
  - apply (proj1 (Hcases _)). reflexivity.
  - apply (proj1 (proj2 (Hcases _))). reflexivity.
  - apply (proj2 (proj2 (Hcases _))). reflexivity.
Defined.

(** C9. A [dropSlotHeight] of 0 given by the user resolves to 2, the
    default, and so does every falsy number. *)
Theorem dropSlotHeight_zero `{TreeApi} `{NUMBER_KEYS.t} (options : option ITreeOptions.t) :
  let this := TreeOptions.constructor options in
  (given ITreeOptions.dropSlotHeight options = Some (Num 0) →
   TreeOptions.dropSlotHeight this = Num 2) ∧
  (∀ n : number,
     given ITreeOptions.dropSlotHeight options = Some n →
     number_truthy n = false →
     TreeOptions.dropSlotHeight this = Num 2).
Proof.
  intros this. subst this. split.
  - intros Hzero. apply dropSlotHeight_default. right. by exists (Num 0).
  - intros n Hgiven Hfalsy. apply dropSlotHeight_default. right. by exists n.
Qed.

Lemma dropSlotHeight_zero_witness :
  TreeOptions.dropSlotHeight
    (@TreeOptions.constructor Sample.api Sample.keyCodes
       (Some (Sample.sizing None None (Some (Num 0))))) = Num 2 ∧
  TreeOptions.dropSlotHeight
    (@TreeOptions.constructor Sample.api Sample.keyCodes
       (Some (Sample.sizing None None (Some NaN)))) = Num 2.
Proof.
  split.
  - apply (proj1 (@dropSlotHeight_zero Sample.api Sample.keyCodes _)). reflexivity.
  - apply (proj2 (@dropSlotHeight_zero Sample.api Sample.keyCodes _) NaN);
      reflexivity.
Defined.

(** ** Resolution as a whole *)

(** C1, as the specification states it, fails: for the empty object the
    getter [enableDragAndDrop] yields [undefined]. *)
Lemma resolution_leaves_undefined :
  ¬ everyFieldDefined
      (@TreeOptions.constructor Sample.api Sample.keyCodes (Some ITreeOptions.empty)).
Proof. intros (_ & [b Hb] & _). discriminate Hb. Qed.

(** C1, as the code has it. Resolution is a total function of the user's
    object. An option left unset resolves to its default for the five
    field names, [levelPadding], [dropSlotHeight], [nodeClass],
    [nodeHeight], [allowDrop] and the action mapping; [enableDragAndDrop]
    and [getChildren] have no default and come out as the user gave them,
    [undefined] when unset. *)
Theorem resolution_defaults `{TreeApi} `{NUMBER_KEYS.t}
    (options : option ITreeOptions.t) (w : World) (node : TreeNode)
    (element : any) (to : DropTarget TreeNode) (event : any) :
  let this := TreeOptions.constructor options in
  (given ITreeOptions.childrenField options = None →
   TreeOptions.childrenField this = "children") ∧
  (given ITreeOptions.displayField options = None →
   TreeOptions.displayField this = "name") ∧
  (given ITreeOptions.idField options = None →
   TreeOptions.idField this = "id") ∧
  (given ITreeOptions.isExpandedField options = None →
   TreeOptions.isExpandedField this = "isExpanded") ∧
  (given ITreeOptions.isHiddenField options = None →
   TreeOptions.isHiddenField this = "isHidden") ∧
  (given ITreeOptions.levelPadding options = None →
   TreeOptions.levelPadding this = Num 0) ∧
  (given ITreeOptions.dropSlotHeight options = None →
   TreeOptions.dropSlotHeight this = Num 2) ∧
  (given ITreeOptions.nodeClass options = None →
   TreeOptions.nodeClass this w node = EmptyString) ∧
  (given ITreeOptions.nodeHeight options = None →
   TreeOptions.nodeHeight this w node
   = if truthy (node_data_virtual w node) then Num 0
     else number_add (Num 22)
            (if number_strict_eq (node_index w node) (Num 0) then Num 2 else Num 1)) ∧
  (given ITreeOptions.allowDrop options = None →
   TreeOptions.allowDrop this w element to event = true) ∧
  (given ITreeOptions.actionMapping options = None →
   TreeOptions.actionMapping this = defaultActionMapping) ∧
  TreeOptions.enableDragAndDrop this = given ITreeOptions.enableDragAndDrop options ∧
  TreeOptions.getChildren this = given ITreeOptions.getChildren options.
Proof.
  intros this. subst this. split_and!.
  - apply childrenField_unset.
  - apply displayField_unset.
  - apply idField_unset.
  - apply isExpandedField_unset.
  - apply isHiddenField_unset.
  - apply levelPadding_unset.
  - intros Hunset. apply dropSlotHeight_default. by left.
  - apply nodeClass_unset.
  - intros Hunset. destruct (truthy (node_data_virtual w node)) eqn:Hvirtual.
    + by apply nodeHeight_virtual.
    + apply nodeHeight_constant; [done|]. by rewrite nodeHeight_option, Hunset.
  - intros Hunset. by rewrite allowDrop_given, Hunset.
  - apply resolved_default.
  - apply enableDragAndDrop_given.
  - apply getChildren_given.
Qed.

Lemma resolution_defaults_witness :
  let this := @TreeOptions.constructor Sample.api Sample.keyCodes None in
  let target : DropTarget (@TreeNode Sample.api) :=
    {| parent := 1%nat; index := Num 0; dropOnNode := false |} in
  TreeOptions.childrenField this = "children"%string ∧
  TreeOptions.displayField this = "name"%string ∧
  TreeOptions.idField this = "id"%string ∧
  TreeOptions.isExpandedField this = "isExpanded"%string ∧
  TreeOptions.isHiddenField this = "isHidden"%string ∧
  TreeOptions.levelPadding this = Num 0 ∧
  TreeOptions.dropSlotHeight this = Num 2 ∧
  TreeOptions.nodeClass this Sample.tree 1%nat = EmptyString ∧
  TreeOptions.nodeHeight this Sample.tree 1%nat = Num 23 ∧
  TreeOptions.allowDrop this Sample.tree undefined target undefined = true ∧
  TreeOptions.actionMapping this = @defaultActionMapping Sample.api Sample.keyCodes ∧
  TreeOptions.enableDragAndDrop this = None ∧
  TreeOptions.getChildren this = None.
Proof.
  intros this target.
  destruct (@resolution_defaults Sample.api Sample.keyCodes None Sample.tree 1%nat
              undefined target undefined)
    as (Hc & Hd & Hi & He & Hh & Hl & Hs & Hn & Hnh & Ha & Hm & Hdd & Hg).
  split_and!;
    [apply Hc | apply Hd | apply Hi | apply He | apply Hh | apply Hl | apply Hs
    | apply Hn | apply Hnh | apply Ha | apply Hm | apply Hdd | apply Hg];
    reflexivity.
Defined.

(** * Further properties of the code *)

(** ** More on the resolved action mapping *)

Section merge_more.
Context `{TreeApi} `{Countable K}.

Lemma assignDefault_idemp (e d : Entry) :
  assignDefault (assignDefault e d) d = assignDefault e d.
Proof. by destruct e, d. Qed.

(** Merging the same defaults a second time changes nothing. *)
Lemma mergeTable_twice (object source : gmap K Entry) :
  mergeTable (mergeTable object source) source = mergeTable object source.
Proof.
  apply map_eq. intros k. unfold mergeTable. rewrite !lookup_union_with.
  destruct (object !! k) as [a|], (source !! k) as [b|]; simpl; try done.
  - by rewrite assignDefault_idemp.
  - by destruct b.
Qed.

End merge_more.

Section resolved_more.
Context `{TreeApi} `{NUMBER_KEYS.t}.

(** The resolved tables in terms of the user's tables. *)
Lemma resolved_tables (options : option ITreeOptions.t) :
  TreeOptions.actionMapping (TreeOptions.constructor options)
  = {| mouse := Some (mergeTable (default ∅ (userActionMapping options ≫= mouse))
                        (default ∅ (mouse defaultActionMapping)));
       keys := Some (mergeTable (default ∅ (userActionMapping options ≫= keys))
                       (default ∅ (keys defaultActionMapping))) |}.
Proof.
  rewrite defaultsDeep_unfold.
  destruct (userActionMapping options) as [[[um|] [uk|]]|];
    unfold baseMerge, mergeTableProp; simpl; by rewrite ?mergeTable_empty_l.
Qed.

Lemma default_mouse_outside (name : string) :
  name ∉ defaultMouseGestures →
  entry (mouse defaultActionMapping) name = Undefined.
Proof.
  unfold defaultMouseGestures. rewrite !not_elem_of_cons.
  intros (? & ? & ? & ? & ? & _).
  unfold defaultActionMapping, entry; cbn [mouse].
  rewrite !prop_insert. repeat case_decide; try congruence.
  apply prop_empty.
Qed.

Lemma default_keys_outside (code : Z) :
  code ∉ defaultKeyCodes →
  entry (keys defaultActionMapping) code = Undefined.
Proof.
  unfold defaultKeyCodes. rewrite !not_elem_of_cons.
  intros (? & ? & ? & ? & ? & ? & _).
  unfold defaultActionMapping, entry; cbn [keys].
  rewrite !prop_insert. repeat case_decide; try congruence.
  apply prop_empty.
Qed.
End resolved_more.


(** X2. Resolution is idempotent on action mappings: options whose
    [actionMapping] is an already resolved mapping resolve to that same
    mapping. *)
Theorem resolution_idempotent `{TreeApi} `{NUMBER_KEYS.t}
    (options : option ITreeOptions.t) (again : ITreeOptions.t) :
  ITreeOptions.actionMapping again
  = Some (TreeOptions.actionMapping (TreeOptions.constructor options)) →
  TreeOptions.actionMapping (TreeOptions.constructor (Some again))
  = TreeOptions.actionMapping (TreeOptions.constructor options).
Proof.
  intros Hagain. rewrite (resolved_tables (Some again)).
  change (userActionMapping (Some again)) with (ITreeOptions.actionMapping again).
  rewrite Hagain, (resolved_tables options).
  cbn [mbind option_bind mouse keys default id].
  by rewrite !mergeTable_twice.
Qed.

Lemma resolution_idempotent_witness :
  let resolved :=
    TreeOptions.actionMapping
      (@TreeOptions.constructor Sample.api Sample.keyCodes (Some Sample.userOptions)) in
  TreeOptions.actionMapping
    (@TreeOptions.constructor Sample.api Sample.keyCodes
       (Some (Fixture.mapped resolved)))
  = resolved.
Proof.
  intros resolved.
  apply (@resolution_idempotent Sample.api Sample.keyCodes (Some Sample.userOptions)).
  reflexivity.
Defined.

(** X3. Outside the five default gestures and the six default key codes
    the resolved entry is the user's entry, [undefined] when the user gave
    none: resolution adds no handler there. *)
Theorem entries_outside_defaults `{TreeApi} `{NUMBER_KEYS.t}
    (options : option ITreeOptions.t) :
  let user := userActionMapping options in
  let resolved := TreeOptions.actionMapping (TreeOptions.constructor options) in
  (∀ name : string, name ∉ defaultMouseGestures →
     entry (mouse resolved) name = entry (user ≫= mouse) name) ∧
  (∀ code : Z, code ∉ defaultKeyCodes →
     entry (keys resolved) code = entry (user ≫= keys) code).
Proof.
  intros user resolved. subst user resolved. split.
  - intros name Hout. rewrite resolved_mouse_entry, default_mouse_outside by done.
    apply assignDefault_Undefined_r.
  - intros code Hout. rewrite resolved_keys_entry, default_keys_outside by done.
    apply assignDefault_Undefined_r.
Qed.

Lemma entries_outside_defaults_witness :
  let resolved :=
    TreeOptions.actionMapping
      (@TreeOptions.constructor Sample.api Sample.keyCodes (Some Sample.userOptions)) in
  entry (mouse resolved) "dragStart"%string = Undefined ∧
  entry (keys resolved) 65 = Obj TREE_ACTIONS.FOCUS ∧
  entry (keys resolved) 66 = Undefined.
Proof.
  intros resolved.
  destruct (@entries_outside_defaults Sample.api Sample.keyCodes (Some Sample.userOptions))
    as [Hmouse Hkeys].
  split_and!.
  - apply (Hmouse "dragStart"%string). unfold defaultMouseGestures.
    rewrite !not_elem_of_cons. split_and!; try done. apply not_elem_of_nil.
  - apply (Hkeys 65). unfold defaultKeyCodes; simpl.
    rewrite !not_elem_of_cons. split_and!; try done. apply not_elem_of_nil.
  - apply (Hkeys 66). unfold defaultKeyCodes; simpl.
    rewrite !not_elem_of_cons. split_and!; try done. apply not_elem_of_nil.
Defined.

(** X4. When the six key codes of [NUMBER_KEYS] are pairwise distinct and
    the user gives no mapping, the right and left arrows drill down and up,
    the down and up arrows go to the next and the previous node, and space
    and enter both toggle the selection. *)
Theorem default_key_table `{TreeApi} `{NUMBER_KEYS.t}
    (options : option ITreeOptions.t) :
  userActionMapping options = None →
  NoDup defaultKeyCodes →
  let resolved := TreeOptions.actionMapping (TreeOptions.constructor options) in
  entry (keys resolved) NUMBER_KEYS.RIGHT = Obj TREE_ACTIONS.DRILL_DOWN ∧
  entry (keys resolved) NUMBER_KEYS.LEFT = Obj TREE_ACTIONS.DRILL_UP ∧
  entry (keys resolved) NUMBER_KEYS.DOWN = Obj TREE_ACTIONS.NEXT_NODE ∧
  entry (keys resolved) NUMBER_KEYS.UP = Obj TREE_ACTIONS.PREVIOUS_NODE ∧
  entry (keys resolved) NUMBER_KEYS.SPACE = Obj TREE_ACTIONS.TOGGLE_SELECTED ∧
  entry (keys resolved) NUMBER_KEYS.ENTER = Obj TREE_ACTIONS.TOGGLE_SELECTED.
Proof.
  intros Hnone Hdistinct resolved. subst resolved.
  rewrite (resolved_default _ Hnone).
  unfold defaultKeyCodes in Hdistinct.
  rewrite !NoDup_cons, !not_elem_of_cons in Hdistinct.
  destruct Hdistinct as ((? & ? & ? & ? & ? & _) & (? & ? & ? & ? & _) &
    (? & ? & ? & _) & (? & ? & _) & (? & _) & _).
  unfold defaultActionMapping, entry; cbn [keys].
  split_and!; rewrite !prop_insert; repeat case_decide; congruence.
Qed.

Lemma default_key_table_witness :
  let resolved :=
    TreeOptions.actionMapping (@TreeOptions.constructor Sample.api Sample.keyCodes None) in
  entry (keys resolved) 39 = Obj TREE_ACTIONS.DRILL_DOWN ∧
  entry (keys resolved) 37 = Obj TREE_ACTIONS.DRILL_UP ∧
  entry (keys resolved) 40 = Obj TREE_ACTIONS.NEXT_NODE ∧
  entry (keys resolved) 38 = Obj TREE_ACTIONS.PREVIOUS_NODE ∧
  entry (keys resolved) 32 = Obj TREE_ACTIONS.TOGGLE_SELECTED ∧
  entry (keys resolved) 13 = Obj TREE_ACTIONS.TOGGLE_SELECTED.
Proof.
  apply (@default_key_table Sample.api Sample.keyCodes None); [reflexivity|].
  unfold defaultKeyCodes; simpl.
  repeat (apply NoDup_cons_2;
            [rewrite ?not_elem_of_cons; split_and?; (done || apply not_elem_of_nil)|]).
  apply NoDup_nil_2.
Defined.

(** X5. A user mapping without entries, be it [{}] or one whose tables are
    empty, resolves to the default mapping. *)
Theorem empty_user_mapping `{TreeApi} `{NUMBER_KEYS.t}
    (options : option ITreeOptions.t) (user : IActionMapping) :
  userActionMapping options = Some user →
  default ∅ (mouse user) = ∅ →
  default ∅ (keys user) = ∅ →
  TreeOptions.actionMapping (TreeOptions.constructor options) = defaultActionMapping.
Proof.
  intros Huser Hmouse Hkeys. rewrite resolved_tables, Huser; simpl.
  rewrite Hmouse, Hkeys. by rewrite !mergeTable_empty_l.
Qed.

Lemma empty_user_mapping_witness :
  TreeOptions.actionMapping
    (@TreeOptions.constructor Sample.api Sample.keyCodes
       (Some (Fixture.mapped (@Build_IActionMapping Sample.api (Some ∅) None))))
  = @defaultActionMapping Sample.api Sample.keyCodes.
Proof.
  apply (@empty_user_mapping Sample.api Sample.keyCodes _
           (@Build_IActionMapping Sample.api (Some ∅) None)); reflexivity.
Defined.

(** ** More on the getters *)

Section getters_more.
Context `{TreeApi} `{NUMBER_KEYS.t}.

(** A field of the object the constructor keeps is the field the user
    gave, for every field that [{}] leaves out. *)
Lemma field_given {A : Type} (field : ITreeOptions.t → option A)
    (options : option ITreeOptions.t) :
  field ITreeOptions.empty = None →
  field (TreeOptions.options (TreeOptions.constructor options)) = given field options.
Proof. intros Hempty. by destruct options. Qed.

Lemma js_or_string_nonempty (x : option string) (literal : string) :
  literal ≠ EmptyString → js_or string_truthy x literal ≠ EmptyString.
Proof.
  intros Hliteral. destruct x as [[|c s]|]; simpl; done.
Qed.

Lemma js_or_string_given (s literal : string) :
  js_or string_truthy (Some s) literal = if decide (s = EmptyString) then literal else s.
Proof. by destruct s. Qed.

Lemma js_or_number_truthy (x : option number) (d : number) :
  number_truthy d = true → number_truthy (js_or number_truthy x d) = true.
Proof.
  intros Hd. destruct x as [n|]; simpl; [|done].
  by destruct (number_truthy n) eqn:Hn.
Qed.

End getters_more.

(** X6. No field-name getter ever returns the empty string, whatever the
    user passes. *)
Theorem field_names_nonempty `{TreeApi} `{NUMBER_KEYS.t}
    (options : option ITreeOptions.t) :
  Forall (λ name, name ≠ EmptyString) (fieldNames (TreeOptions.constructor options)).
Proof.
  unfold fieldNames.
  repeat apply Forall_cons_2; [..|apply Forall_nil_2];
    by apply js_or_string_nonempty.
Qed.

(** X7. A field name given by the user is returned as it is, except the
    empty string, which is replaced by the default name like an unset
    option. *)
Theorem field_names_given `{TreeApi} `{NUMBER_KEYS.t}
    (options : option ITreeOptions.t) (s : string) :
  let this := TreeOptions.constructor options in
  let pick (literal : string) := if decide (s = EmptyString) then literal else s in
  (given ITreeOptions.childrenField options = Some s →
   TreeOptions.childrenField this = pick "children") ∧
  (given ITreeOptions.displayField options = Some s →
   TreeOptions.displayField this = pick "name") ∧
  (given ITreeOptions.idField options = Some s →
   TreeOptions.idField this = pick "id") ∧
  (given ITreeOptions.isExpandedField options = Some s →
   TreeOptions.isExpandedField this = pick "isExpanded") ∧
  (given ITreeOptions.isHiddenField options = Some s →
   TreeOptions.isHiddenField this = pick "isHidden").
Proof.
  intros this pick. subst this pick.
  unfold TreeOptions.childrenField, TreeOptions.displayField, TreeOptions.idField,
    TreeOptions.isExpandedField, TreeOptions.isHiddenField.
  split_and!; intros Hgiven; rewrite field_given, Hgiven by done;
    apply js_or_string_given.
Qed.

Lemma field_names_given_witness :
  TreeOptions.childrenField
    (@TreeOptions.constructor Sample.api Sample.keyCodes
       (Some (Fixture.custom (Some "items"%string) (Some EmptyString)
                None None None None))) = "items"%string ∧
  TreeOptions.displayField
    (@TreeOptions.constructor Sample.api Sample.keyCodes
       (Some (Fixture.custom (Some "items"%string) (Some EmptyString)
                None None None None))) = "name"%string.
Proof.
  split.
  - apply (proj1 (@field_names_given Sample.api Sample.keyCodes _ "items"%string)).
    reflexivity.
  - apply (proj1 (proj2 (@field_names_given Sample.api Sample.keyCodes _ EmptyString))).
    reflexivity.
Defined.

(** X8. [dropSlotHeight] is never 0 or [NaN] and is the user's number
    whenever that number is truthy; [levelPadding] is never [NaN] and is
    the user's number whenever that number is an integer, 0 included. *)
Theorem numeric_getters `{TreeApi} `{NUMBER_KEYS.t}
    (options : option ITreeOptions.t) :
  let this := TreeOptions.constructor options in
  number_truthy (TreeOptions.dropSlotHeight this) = true ∧
  (∀ n, given ITreeOptions.dropSlotHeight options = Some n →
        number_truthy n = true → TreeOptions.dropSlotHeight this = n) ∧
  TreeOptions.levelPadding this ≠ NaN ∧
  (∀ z, given ITreeOptions.levelPadding options = Some (Num z) →
        TreeOptions.levelPadding this = Num z).
Proof.
  intros this. subst this.
  unfold TreeOptions.dropSlotHeight, TreeOptions.levelPadding. split_and!.
  - by apply js_or_number_truthy.
  - intros n Hgiven Htruthy. rewrite field_given, Hgiven by done.
    by apply js_or_truthy.
  - rewrite field_given by done.
    destruct (given ITreeOptions.levelPadding options) as [[z|]|]; simpl; try done.
    by destruct (negb (z =? 0)).
  - intros z Hgiven. rewrite field_given, Hgiven by done. simpl.
    destruct (Z.eqb_spec z 0) as [->|]; done.
Qed.

Lemma numeric_getters_witness :
  let this := @TreeOptions.constructor Sample.api Sample.keyCodes
                (Some (Fixture.custom None None (Some (Num 0)) (Some (Num 5))
                         None None)) in
  TreeOptions.dropSlotHeight this = Num 5 ∧ TreeOptions.levelPadding this = Num 0.
Proof.
  intros this.
  destruct (@numeric_getters Sample.api Sample.keyCodes
              (Some (Fixture.custom None None (Some (Num 0)) (Some (Num 5)) None None)))
    as (_ & Hdrop & _ & Hpad).
  split; [apply Hdrop | apply Hpad]; reflexivity.
Defined.

(** X9. A constant [nodeHeight] of 0 or [NaN] counts as no option at all:
    every node is as high as under the default options. *)
Theorem nodeHeight_falsy_constant `{TreeApi} `{NUMBER_KEYS.t}
    (options : option ITreeOptions.t) (n : number) (w : World) (node : TreeNode) :
  given ITreeOptions.nodeHeight options = Some (plain n) →
  number_truthy n = false →
  TreeOptions.nodeHeight (TreeOptions.constructor options) w node
  = TreeOptions.nodeHeight (TreeOptions.constructor None) w node.
Proof.
  intros Hgiven Hfalsy.
  destruct (truthy (node_data_virtual w node)) eqn:Hvirtual.
  - by rewrite !nodeHeight_virtual.
  - rewrite (nodeHeight_constant options (Num 22)),
      (nodeHeight_constant None (Num 22)); try done.
    rewrite nodeHeight_option, Hgiven. by apply js_or_falsy.
Qed.

Lemma nodeHeight_falsy_constant_witness :
  TreeOptions.nodeHeight
    (@TreeOptions.constructor Sample.api Sample.keyCodes
       (Some (Fixture.custom None None None None (Some (plain (Num 0))) None)))
    Sample.tree 0%nat
  = TreeOptions.nodeHeight (@TreeOptions.constructor Sample.api Sample.keyCodes None)
      Sample.tree 0%nat.
Proof.
  apply (@nodeHeight_falsy_constant Sample.api Sample.keyCodes _ (Num 0)); reflexivity.
Defined.

(** X10. With a function as [nodeHeight] a node that is no virtual spacer
    is as high as the function says plus its drop slot; the 22 is not used
    even when the function returns 0, which gives 2 at index 0 and 1
    elsewhere. *)
Theorem nodeHeight_function `{TreeApi} `{NUMBER_KEYS.t}
    (options : option ITreeOptions.t) (f : INodeHeightFn) (w : World) (node : TreeNode) :
  given ITreeOptions.nodeHeight options = Some (function f) →
  truthy (node_data_virtual w node) = false →
  let this := TreeOptions.constructor options in
  TreeOptions.nodeHeight this w node
  = number_add (f w node)
      (if number_strict_eq (node_index w node) (Num 0) then Num 2 else Num 1) ∧
  (f w node = Num 0 →
   TreeOptions.nodeHeight this w node
   = if number_strict_eq (node_index w node) (Num 0) then Num 2 else Num 1).
Proof.
  intros Hgiven Hvirtual this. subst this.
  assert (TreeOptions.nodeHeight (TreeOptions.constructor options) w node
          = number_add (f w node)
              (if number_strict_eq (node_index w node) (Num 0) then Num 2 else Num 1))
    as Hheight.
  { unfold TreeOptions.nodeHeight.
    rewrite Hvirtual, constructor_options, nodeHeight_option, Hgiven. done. }
  split; [done|]. intros Hzero. rewrite Hheight, Hzero.
  by destruct (number_strict_eq _ _).
Qed.

Lemma nodeHeight_function_witness :
  let this := @TreeOptions.constructor Sample.api Sample.keyCodes
                (Some (Fixture.custom None None None None
                         (Some (function Fixture.rowHeight)) None)) in
  TreeOptions.nodeHeight this Sample.tree 0%nat = Num 2 ∧
  TreeOptions.nodeHeight this Sample.tree 3%nat = Num 31.
Proof.
  intros this.
  pose proof (λ node Hvirtual,
                @nodeHeight_function Sample.api Sample.keyCodes
                  (Some (Fixture.custom None None None None
                           (Some (function Fixture.rowHeight)) None))
                  Fixture.rowHeight Sample.tree node eq_refl Hvirtual) as Hheight.
  split.
  - apply (proj2 (Hheight 0%nat eq_refl)). reflexivity.
  - apply (proj1 (Hheight 3%nat eq_refl)).
Defined.



(** X12. [allowDrag] has no default: its result is defined exactly when
    the user gave the option; a boolean is returned as it is and a function
    is applied to the node. *)
Theorem allowDrag_cases `{TreeApi} `{NUMBER_KEYS.t}
    (options : option ITreeOptions.t) (w : World) (node : TreeNode) :
  let this := TreeOptions.constructor options in
  (is_Some (TreeOptions.allowDrag this w node)
   ↔ is_Some (given ITreeOptions.allowDrag options)) ∧
  (∀ b : bool, given ITreeOptions.allowDrag options = Some (plain b) →
     TreeOptions.allowDrag this w node = Some b) ∧
  (∀ f : IAllowDragFn, given ITreeOptions.allowDrag options = Some (function f) →
     TreeOptions.allowDrag this w node = Some (f w node)).
Proof.
  intros this. subst this. unfold TreeOptions.allowDrag.
  rewrite field_given by done.
  destruct (given ITreeOptions.allowDrag options) as [[b|f]|]; split_and!;
    try (intros ? [= <-]); try done; try (split; eauto); by intros ? [=].
Qed.

Lemma allowDrag_cases_witness :
  let allowDrag option node :=
    TreeOptions.allowDrag
      (@TreeOptions.constructor Sample.api Sample.keyCodes
         (Some (Fixture.custom None None None None None option)))
      Sample.tree node in
  allowDrag (Some (plain false)) 1%nat = Some false ∧
  allowDrag (Some (function Fixture.oddOnly)) 1%nat = Some true ∧
  allowDrag (Some (function Fixture.oddOnly)) 2%nat = Some false.
Proof.
  intros allowDrag. subst allowDrag.
  pose proof (λ option node,
                @allowDrag_cases Sample.api Sample.keyCodes
                  (Some (Fixture.custom None None None None None option))
                  Sample.tree node) as Hcases.
  split_and!.
  - apply (proj1 (proj2 (Hcases _ _))). reflexivity.
  - apply (proj2 (proj2 (Hcases _ 1%nat)) Fixture.oddOnly). reflexivity.
  - apply (proj2 (proj2 (Hcases _ 2%nat)) Fixture.oddOnly). reflexivity.
Defined.

(** ** More on the built-in actions *)

Section actions_more.
Context `{TreeApi}.

(** What a method call leaves behind. *)
Lemma invoke_run (c : Call TreeModel TreeNode) (s : State) :
  invoke c s
  = ((perform c (world s)).1,
     {| world := (perform c (world s)).2; calls := calls s ++ [c] |}).
Proof. unfold invoke. by destruct (perform c (world s)). Qed.

Lemma log_silent (out : Outcome any * State) (s : State) :
  out.2 = s →
  ∃ new : list (Call TreeModel TreeNode),
    calls out.2 = calls s ++ new ∧ (length new ≤ 1)%nat ∧
    (new = [] → world out.2 = world s).
Proof. intros ->. exists []. rewrite app_nil_r. split_and!; [done|simpl; lia|done]. Qed.

Lemma log_invoke (c : Call TreeModel TreeNode) (s : State) :
  ∃ new : list (Call TreeModel TreeNode),
    calls (invoke c s).2 = calls s ++ new ∧ (length new ≤ 1)%nat ∧
    (new = [] → world (invoke c s).2 = world s).
Proof. exists [c]. rewrite invoke_run. simpl. split_and!; [done|lia|done]. Qed.

Lemma log_member (node : Nullable TreeNode) (c : TreeNode → Call TreeModel TreeNode)
    (s : State) :
  ∃ new : list (Call TreeModel TreeNode),
    calls (member node (λ n, invoke (c n)) s).2 = calls s ++ new ∧
    (length new ≤ 1)%nat ∧
    (new = [] → world (member node (λ n, invoke (c n)) s).2 = world s).
Proof. destruct node; [by apply log_silent..|apply log_invoke]. Qed.

Lemma move_node_run (tree : TreeModel) (node : Nullable TreeNode) (event : any)
    (args : MoveArgs) (s : State) :
  TREE_ACTIONS.MOVE_NODE tree node event (Some args) s
  = (match (perform (tree_moveNode tree (from args) (to args)) (world s)).1 with
     | Value _ => Value undefined
     | TypeError => TypeError
     end,
     {| world := (perform (tree_moveNode tree (from args) (to args)) (world s)).2;
        calls := calls s ++ [tree_moveNode tree (from args) (to args)] |}).
Proof.
  unfold TREE_ACTIONS.MOVE_NODE, bind. rewrite invoke_run.
  by destruct (perform _ _).1.
Qed.

Lemma toggle_expanded_run (tree : TreeModel) (node : TreeNode) (event : any)
    (rest : option MoveArgs) (s : State) :
  TREE_ACTIONS.TOGGLE_EXPANDED tree (Obj node) event rest s
  = if node_hasChildren (world s) node then invoke (node_toggleExpanded node) s
    else (Value (boolean false), s).
Proof.
  unfold TREE_ACTIONS.TOGGLE_EXPANDED, member, bind, read, ret.
  by destruct (node_hasChildren (world s) node).
Qed.
End actions_more.

(** X13. A built-in action makes at most one method call: the log of calls
    grows at its end by nothing or by one call, and when it grows by
    nothing the world is as before. *)
Theorem builtin_actions_one_call `{TreeApi} (h : IActionHandler)
    (tree : TreeModel) (node : Nullable TreeNode) (event : any)
    (rest : option MoveArgs) (s : State) :
  h ∈ builtinActions →
  ∃ new : list (Call TreeModel TreeNode),
    calls (h tree node event rest s).2 = calls s ++ new ∧
    (length new ≤ 1)%nat ∧
    (new = [] → world (h tree node event rest s).2 = world s).
Proof.
  unfold builtinActions. rewrite !elem_of_cons, elem_of_nil.
  intros [->|[->|[->|[->|[->|[->|[->|[->|[->|[->|[->|[->|[->|[]]]]]]]]]]]]]].
  - destruct node; [by apply log_silent..|apply log_invoke].
  - destruct node; [by apply log_silent..|apply log_invoke].
  - apply (log_member node (λ n, node_setActive n true)).
  - apply (log_member node (λ n, node_setActive n false)).
  - apply (log_member node node_focus).
  - destruct node as [| |n]; [by apply log_silent..|].
    rewrite toggle_expanded_run.
    destruct (node_hasChildren (world s) n); [apply log_invoke|by apply log_silent].
  - apply (log_member node node_expand).
  - apply (log_member node node_collapse).
  - apply log_invoke.
  - apply log_invoke.
  - apply log_invoke.
  - apply log_invoke.
  - destruct rest as [args|]; [|by apply log_silent].
    rewrite move_node_run. exists [tree_moveNode tree (from args) (to args)].
    simpl. split_and!; [done|lia|done].
Qed.

Lemma builtin_actions_one_call_witness :
  ∃ new : list (Call unit nat),
    calls (@TREE_ACTIONS.TOGGLE_EXPANDED Sample.api tt (Obj 0%nat) undefined None
             Fixture.familyStart).2 = [] ++ new ∧
    (length new ≤ 1)%nat ∧
    (new = [] →
     world (@TREE_ACTIONS.TOGGLE_EXPANDED Sample.api tt (Obj 0%nat) undefined None
              Fixture.familyStart).2 = Fixture.family).
Proof.
  apply (@builtin_actions_one_call Sample.api TREE_ACTIONS.TOGGLE_EXPANDED tt
           (Obj 0%nat) undefined None Fixture.familyStart).
  unfold builtinActions. rewrite !elem_of_cons. tauto.
Defined.

(** X14. Without a node ([null] or [undefined]) the two toggle-select
    actions return that falsy value and do nothing, and the six actions
    that call a method of the node throw a [TypeError] before anything is
    called or changed. *)
Theorem actions_without_node `{TreeApi} (tree : TreeModel)
    (node : Nullable TreeNode) (event : any) (rest : option MoveArgs) (s : State) :
  (∀ n, node ≠ Obj n) →
  TREE_ACTIONS.TOGGLE_SELECTED tree node event rest s = (Value (falsy_value node), s) ∧
  TREE_ACTIONS.TOGGLE_SELECTED_MULTI tree node event rest s
  = (Value (falsy_value node), s) ∧
  Forall (λ h : IActionHandler, h tree node event rest s = (TypeError, s))
    nodeMethodActions.
Proof.
  intros Hnone. destruct node as [| |n]; [| |by destruct (Hnone n)];
    (split_and!; [done|done|]);
    unfold nodeMethodActions; repeat apply Forall_cons_2; by try apply Forall_nil_2.
Qed.

Lemma actions_without_node_witness :
  @TREE_ACTIONS.TOGGLE_SELECTED Sample.api tt Null undefined None Sample.start
  = (Value null, Sample.start) ∧
  @TREE_ACTIONS.TOGGLE_SELECTED_MULTI Sample.api tt Null undefined None Sample.start
  = (Value null, Sample.start) ∧
  Forall (λ h : @IActionHandler Sample.api,
            h tt Null undefined None Sample.start = (TypeError, Sample.start))
    (@nodeMethodActions Sample.api).
Proof.
  apply (@actions_without_node Sample.api tt Null undefined None Sample.start).
  discriminate.
Defined.

(** X15. [MOVE_NODE] without its fourth argument throws a [TypeError] and
    calls nothing. With it, the action makes the one call
    [tree.moveNode(from, to)], whatever node it was invoked on, and
    returns [undefined] in place of what [moveNode] returned. *)
Theorem move_node_action `{TreeApi} (tree : TreeModel) (node : Nullable TreeNode)
    (event : any) (s : State) :
  TREE_ACTIONS.MOVE_NODE tree node event None s = (TypeError, s) ∧
  ∀ args : MoveArgs,
    let call := tree_moveNode tree (from args) (to args) in
    let out := TREE_ACTIONS.MOVE_NODE tree node event (Some args) s in
    calls out.2 = calls s ++ [call] ∧
    world out.2 = (perform call (world s)).2 ∧
    out.1 = match (perform call (world s)).1 with
            | Value _ => Value undefined
            | TypeError => TypeError
            end.
Proof.
  split; [done|]. intros args call out. subst call out.
  by rewrite move_node_run.
Qed.

(** X16. On a node, [TOGGLE_EXPANDED] calls [toggleExpanded] exactly when
    the node has children, and then the action is that call and nothing
    else. *)
Theorem toggle_expanded_calls `{TreeApi} (tree : TreeModel) (node : TreeNode)
    (event : any) (rest : option MoveArgs) (s : State) :
  let out := TREE_ACTIONS.TOGGLE_EXPANDED tree (Obj node) event rest s in
  calls out.2
  = calls s ++ (if node_hasChildren (world s) node
                then [node_toggleExpanded node] else []) ∧
  (node_hasChildren (world s) node = true →
   out = invoke (node_toggleExpanded node) s).
Proof.
  intros out. subst out. rewrite toggle_expanded_run.
  destruct (node_hasChildren (world s) node).
  - by rewrite invoke_run.
  - simpl. rewrite app_nil_r. by split.
Qed.

Lemma toggle_expanded_calls_witness :
  calls (@TREE_ACTIONS.TOGGLE_EXPANDED Sample.api tt (Obj 0%nat) undefined None
           Fixture.familyStart).2 = [node_toggleExpanded 0%nat] ∧
  @TREE_ACTIONS.TOGGLE_EXPANDED Sample.api tt (Obj 0%nat) undefined None
    Fixture.familyStart
  = @invoke Sample.api (node_toggleExpanded 0%nat) Fixture.familyStart.
Proof.
  destruct (@toggle_expanded_calls Sample.api tt 0%nat undefined None
              Fixture.familyStart) as [Hcalls Hrun].
  split; [exact Hcalls | apply Hrun; reflexivity].
Defined.
